(** * Agentic Infra RCA: a shallow embedding of the RCA orchestration engine

    The development follows the layout of [infra_rca/]:
    - [Text]: the Python [str] methods the code relies on;
    - [Re]: a backtracking matcher with the semantics of Python's [re] for
      the pattern constructs that occur in [utils/dspy_helper.py];
    - [markdown_helper], [dspy_helper], [k8s_helper], [agent], [watch_agent]:
      the functions of the corresponding source files.

    Text is a list of 8-bit characters.  The ASCII range is modelled exactly
    (whitespace, line boundaries, letter case); a character above 127 is an
    opaque symbol that is neither whitespace nor cased, which is how the
    bytes of a UTF-8 encoded literal such as an emoji behave here. *)

From Stdlib Require Import List Ascii String Bool Arith Lia QArith Lqa.
From stdpp Require Import base list gmap strings sorting.
Import ListNotations.

Local Open Scope string_scope.
Local Open Scope nat_scope.
Local Open Scope list_scope.

(* ===================================================================== *)
(** ** Python strings *)
(* ===================================================================== *)

Module Text.

Definition t := list ascii.

(** A string literal. *)
Definition T (s : string) : t := list_ascii_of_string s.

Definition code (c : ascii) : nat := nat_of_ascii c.

(** [str.isspace] on one character: TAB..CR, FS..US and the blank. *)
Definition is_space (c : ascii) : bool :=
  ((9 <=? code c) && (code c <=? 13)) || ((28 <=? code c) && (code c <=? 32)).

(** The line boundaries of [str.splitlines]: LF, VT, FF, CR, FS, GS, RS. *)
Definition is_linebreak (c : ascii) : bool :=
  ((10 <=? code c) && (code c <=? 13)) || ((28 <=? code c) && (code c <=? 30)).

Definition is_upper (c : ascii) : bool := (65 <=? code c) && (code c <=? 90).
Definition is_lower (c : ascii) : bool := (97 <=? code c) && (code c <=? 122).
Definition is_digit (c : ascii) : bool := (48 <=? code c) && (code c <=? 57).

Definition lower_char (c : ascii) : ascii :=
  if is_upper c then ascii_of_nat (code c + 32) else c.
Definition upper_char (c : ascii) : ascii :=
  if is_lower c then ascii_of_nat (code c - 32) else c.

Definition eqc (a b : ascii) : bool := Ascii.eqb a b.

(** [s.lower()] *)
Definition lower (s : t) : t := List.map lower_char s.

(** [s.capitalize()] *)
Definition capitalize (s : t) : t :=
  match s with
  | [] => []
  | c :: r => upper_char c :: lower r
  end.

(** [s.lstrip()], [s.rstrip()], [s.strip()] *)
Fixpoint lstrip (s : t) : t :=
  match s with
  | [] => []
  | c :: r => if is_space c then lstrip r else s
  end.

Fixpoint rstrip (s : t) : t :=
  match s with
  | [] => []
  | c :: r =>
      match rstrip r with
      | [] => if is_space c then [] else [c]
      | r' => c :: r'
      end
  end.

Definition strip (s : t) : t := rstrip (lstrip s).

(** [a == b] *)
Fixpoint eqb (a b : t) : bool :=
  match a, b with
  | [], [] => true
  | x :: a', y :: b' => eqc x y && eqb a' b'
  | _, _ => false
  end.

(** [s.startswith(p)] *)
Fixpoint startswith (p s : t) : bool :=
  match p, s with
  | [], _ => true
  | x :: p', y :: s' => eqc x y && startswith p' s'
  | _ :: _, [] => false
  end.

(** [p in s] *)
Fixpoint contains (p s : t) : bool :=
  startswith p s ||
  match s with
  | [] => false
  | _ :: r => contains p r
  end.

(** [x in (a, b, ...)] for a tuple or list of strings *)
Definition mem (x : t) (l : list t) : bool := existsb (eqb x) l.

(** [sep.join(parts)] *)
Fixpoint join (sep : t) (parts : list t) : t :=
  match parts with
  | [] => []
  | [x] => x
  | x :: r => x ++ sep ++ join sep r
  end.

(** [s.split(":", 1)[1]]: the text after the first colon.  Every call site
    is guarded by a [startswith] test on a prefix that ends in a colon, so
    the [IndexError] of a colon-free string cannot arise; the model returns
    the empty text there. *)
Fixpoint after_colon (s : t) : t :=
  match s with
  | [] => []
  | c :: r => if eqc c ":" then r else after_colon r
  end.

(** [s.splitlines()].  [after_cr] records that the previous character was
    a carriage return, so that the line feed of a CR LF pair is not a
    second boundary. *)
Fixpoint splitlines_aux (after_cr : bool) (s : t) : list t :=
  match s with
  | [] => []
  | c :: r =>
      if after_cr && eqc c "010" then splitlines_aux false r
      else if is_linebreak c then [] :: splitlines_aux (eqc c "013") r
      else match splitlines_aux false r with
           | [] => [[c]]
           | l :: ls => (c :: l) :: ls
           end
  end.

Definition splitlines (s : t) : list t := splitlines_aux false s.

(** Lexicographic order on code points, the order of [sorted] on [str]. *)
Fixpoint ltb (a b : t) : bool :=
  match a, b with
  | _, [] => false
  | [], _ :: _ => true
  | x :: a', y :: b' =>
      (code x <? code y) || ((code x =? code y) && ltb a' b')
  end.

Definition leb (a b : t) : bool := negb (ltb b a).

Definition nl : t := ["010"%char].

End Text.

Abbreviation Text := Text.t.
Abbreviation T := Text.T.

(* ===================================================================== *)
(** ** Python regular expressions *)
(* ===================================================================== *)

(** A backtracking matcher in continuation-passing style, which tries the
    alternatives in the order of Python's [re]: the left branch of an
    alternation first, the longest repetition first for a greedy quantifier
    and the shortest first for a lazy one.  Quantifiers range over a single
    character class, which is all the patterns of [dspy_helper.py] need. *)

Module Re.

Inductive re : Type :=
| Eps                                  (* the empty pattern *)
| Chr (p : ascii -> bool)              (* one character of a class *)
| Seq (r1 r2 : re)                     (* r1r2 *)
| Alt (r1 r2 : re)                     (* r1|r2 *)
| StarG (p : ascii -> bool)            (* c*  *)
| StarL (p : ascii -> bool)            (* c*? *)
| Grp (r : re)                         (* (r), the capturing group *)
| Eos                                  (* $ without MULTILINE *)
| Look (r : re)                        (* (?=r) *)
| WordB.                               (* \b *)

Declare Scope re_scope.
Delimit Scope re_scope with re.
Bind Scope re_scope with re.
Infix ">>" := Seq (at level 41, right associativity) : re_scope.
Infix "<|>" := Alt (at level 42, right associativity) : re_scope.

(** c+ and (?:r)? *)
Definition PlusG (p : ascii -> bool) : re := Seq (Chr p) (StarG p).
Definition Opt (r : re) : re := Alt r Eps.

(** A literal, and a literal under IGNORECASE. *)
Fixpoint lit (s : Text) : re :=
  match s with
  | [] => Eps
  | [c] => Chr (Text.eqc c)
  | c :: s' => Seq (Chr (Text.eqc c)) (lit s')
  end.

Definition eqc_i (c x : ascii) : bool :=
  Text.eqc (Text.lower_char c) (Text.lower_char x).

Fixpoint lit_i (s : Text) : re :=
  match s with
  | [] => Eps
  | [c] => Chr (eqc_i c)
  | c :: s' => Seq (Chr (eqc_i c)) (lit_i s')
  end.

(** Character classes: \s, \S, \w, the dot with and without DOTALL, and
    the negated class of the line feed. *)
Definition ws : ascii -> bool := Text.is_space.
Definition non_ws (c : ascii) : bool := negb (Text.is_space c).
Definition word (c : ascii) : bool :=
  Text.is_upper c || Text.is_lower c || Text.is_digit c || Text.eqc c "_".
Definition any (c : ascii) : bool := true.
Definition not_nl (c : ascii) : bool := negb (Text.eqc c "010").

(** The state of a match: the position reached, the character before it
    (for \b), the text still ahead and the text of the capturing group. *)
Record mstate : Type := MState {
  pos : nat;
  prev : option ascii;
  rest : Text;
  grp : option Text
}.

Section Matcher.
Context {A : Type}.

Fixpoint starG (p : ascii -> bool) (k : mstate -> option A)
    (i : nat) (b : option ascii) (g : option Text) (s : Text) : option A :=
  match s with
  | c :: s' =>
      if p c then
        match starG p k (S i) (Some c) g s' with
        | Some a => Some a
        | None => k (MState i b s g)
        end
      else k (MState i b s g)
  | [] => k (MState i b [] g)
  end.

Fixpoint starL (p : ascii -> bool) (k : mstate -> option A)
    (i : nat) (b : option ascii) (g : option Text) (s : Text) : option A :=
  match k (MState i b s g) with
  | Some a => Some a
  | None =>
      match s with
      | c :: s' => if p c then starL p k (S i) (Some c) g s' else None
      | [] => None
      end
  end.
End Matcher.

Definition is_word_opt (c : option ascii) : bool :=
  match c with Some x => word x | None => false end.

Fixpoint m {A : Type} (r : re) (st : mstate) (k : mstate -> option A)
    : option A :=
  match r with
  | Eps => k st
  | Chr p =>
      match rest st with
      | c :: s' => if p c then k (MState (S (pos st)) (Some c) s' (grp st))
                   else None
      | [] => None
      end
  | Seq r1 r2 => m r1 st (fun st1 => m r2 st1 k)
  | Alt r1 r2 =>
      match m r1 st k with
      | Some a => Some a
      | None => m r2 st k
      end
  | StarG p => starG p k (pos st) (prev st) (grp st) (rest st)
  | StarL p => starL p k (pos st) (prev st) (grp st) (rest st)
  | Grp r1 =>
      m r1 st (fun e =>
        k (MState (pos e) (prev e) (rest e)
                  (Some (firstn (pos e - pos st) (rest st)))))
  | Eos =>
      match rest st with
      | [] => k st
      | [c] => if Text.eqc c "010" then k st else None
      | _ => None
      end
  | Look r1 =>
      match m r1 st (fun _ => Some tt) with
      | Some _ => k st
      | None => None
      end
  | WordB =>
      if xorb (is_word_opt (prev st)) (is_word_opt (head (rest st)))
      then k st else None
  end.

(** A match of [r] that starts exactly at the given position. *)
Definition match_at (r : re) (i : nat) (b : option ascii) (s : Text)
    : option mstate :=
  m r (MState i b s None) Some.

(** [re.search]: the leftmost match; the result is the final state. *)
Fixpoint search_from (r : re) (i : nat) (b : option ascii) (s : Text)
    : option mstate :=
  match match_at r i b s with
  | Some e => Some e
  | None =>
      match s with
      | [] => None
      | c :: s' => search_from r (S i) (Some c) s'
      end
  end.

Definition search (r : re) (s : Text) : option mstate :=
  search_from r 0 None s.

(** [m.group(1)]; a group that took no part in the match reads as empty. *)
Definition group1 (e : mstate) : Text :=
  match grp e with Some g => g | None => [] end.

(** [re.findall] for a pattern with one group: the group of each of the
    successive non-overlapping matches.  [skip] counts the characters of
    the previous match that are still to be stepped over.  (No pattern of
    this program matches the empty string; such a match would make the
    scan advance by one character.) *)
Fixpoint findall_from (r : re) (skip i : nat) (b : option ascii) (s : Text)
    : list Text :=
  match s with
  | [] => []
  | c :: s' =>
      match skip with
      | S n => findall_from r n (S i) (Some c) s'
      | O =>
          match match_at r i b s with
          | Some e =>
              group1 e :: findall_from r (pos e - i - 1) (S i) (Some c) s'
          | None => findall_from r 0 (S i) (Some c) s'
          end
      end
  end.

Definition findall (r : re) (s : Text) : list Text :=
  findall_from r 0 0 None s.

(** [re.sub(r, "", s)]: every non-overlapping match is removed. *)
Fixpoint remove_from (r : re) (skip i : nat) (b : option ascii) (s : Text)
    : Text :=
  match s with
  | [] => []
  | c :: s' =>
      match skip with
      | S n => remove_from r n (S i) (Some c) s'
      | O =>
          match match_at r i b s with
          | Some e =>
              if pos e =? i then c :: remove_from r 0 (S i) (Some c) s'
              else remove_from r (pos e - i - 1) (S i) (Some c) s'
          | None => c :: remove_from r 0 (S i) (Some c) s'
          end
      end
  end.

Definition remove_all (r : re) (s : Text) : Text :=
  remove_from r 0 0 None s.

End Re.

(** A block of literal lines, as in a triple-quoted string. *)
Definition para (l : list string) : Text :=
  Text.join Text.nl (List.map T l).

(* ===================================================================== *)
(** ** Effects: calls to the outside world *)
(* ===================================================================== *)

(** The two generative models of [InfraRCAHelper]. *)
Inductive Model : Type := Primary | Fallback.

(** Every call that leaves the process, and the two internal calls whose
    absence is observable ([extract_signals], [run_rca]), is recorded. *)
Inductive Event : Type :=
| EvGenerate (model : Model) (prompt : Text)
| EvSleep (seconds : nat)
| EvCollect (kind name : Text) (namespace : option Text)
| EvSummarizePod (namespace pod : Text)
| EvSummarizeNodes
| EvExtractSignals
| EvRunRca (kind name : Text)
| EvListNamespaces (exclude_system : bool)
| EvListResources (kind : Text) (namespace : option Text)
| EvAnalyze (kind name : Text) (namespace : option Text)
| EvWriteFile (path content : Text).

Definition Log := list Event.

(** A computation reads the log of the calls made so far, appends to it and
    either returns or raises.  An external collaborator is an oracle: a
    function of the log and of the arguments of the call, so that its answer
    may change from one call to the next. *)
Module Eff.

Inductive outcome (A : Type) : Type :=
| Ok (a : A)
| Raise (e : Text).
Arguments Ok {A} a.
Arguments Raise {A} e.

Definition M (A : Type) : Type := Log -> outcome A * Log.

Definition ret {A} (a : A) : M A := fun l => (Ok a, l).

Definition bind {A B} (c : M A) (f : A -> M B) : M B :=
  fun l =>
    match c l with
    | (Ok a, l') => f a l'
    | (Raise e, l') => (Raise e, l')
    end.

Definition raise {A} (e : Text) : M A := fun l => (Raise e, l).

(** [try: c except Exception as e: h e] *)
Definition try_catch {A} (c : M A) (h : Text -> M A) : M A :=
  fun l =>
    match c l with
    | (Ok a, l') => (Ok a, l')
    | (Raise e, l') => h e l'
    end.

Definition tell (ev : Event) : M unit := fun l => (Ok tt, l ++ [ev]).

(** A call to a collaborator: the oracle answers from the log before the
    call, and the call is recorded. *)
Definition call {A} (ev : Event) (oracle : Log -> outcome A) : M A :=
  fun l => (oracle l, l ++ [ev]).

Definition run {A} (c : M A) (l : Log) : outcome A * Log := c l.

End Eff.

Notation "'let!' x ':=' c 'in' k" := (Eff.bind c (fun x => k))
  (at level 10, x name, c at level 100, k at level 200).

(* ===================================================================== *)
(** ** utils/markdown_helper.py *)
(* ===================================================================== *)

Module markdown_helper.

(** The truth value of an optional string: [None] and the empty string
    are false. *)
Definition truthy (o : option Text) : bool :=
  match o with
  | Some (_ :: _) => true
  | _ => false
  end.

(** The test of line 14 that guards the patch section. *)
Definition has_patch_section (patch_yaml : Text) : bool :=
  negb (Text.eqb patch_yaml [])
  && negb (Text.startswith (T "# No manifest change") (Text.strip patch_yaml))
  && negb (Text.eqb (Text.strip patch_yaml) []).

Definition patch_section (patch_yaml : Text) : Text :=
  para [""; "## 🧩 Suggested Manifest Patch"; "```yaml"; ""]
  ++ Text.strip patch_yaml ++ para [""; "```"].

(** The lines before the optional patch section. *)
Definition head_lines (kind name : Text) (namespace : option Text)
    (root_cause reasoning : Text) (recommendations : list Text)
    (category : option Text) : list Text :=
  [T "# RCA Report for " ++ kind ++ T ": `" ++ name ++ T "`"
   ++ (if truthy namespace
       then T " (Namespace: `" ++ default [] namespace ++ T "`)"
       else [])]
  ++ (if truthy category
      then [T "### 🧩 Category: " ++ default [] category]
      else [])
  ++ [para [""; "## 🧠 Root Cause"; ""] ++ root_cause]
  ++ [para [""; "## 💡 Reasoning"; ""] ++ reasoning]
  ++ [para [""; "## 🛠 Recommendations"; ""]
      ++ Text.join Text.nl
           (List.map (fun r => T "- " ++ r) recommendations)].


Definition build_markdown_generic (kind name : Text)
    (namespace : option Text) (root_cause reasoning : Text)
    (recommendations : list Text) (patch_yaml : Text)
    (category : option Text) : Text :=
  let lines :=
    head_lines kind name namespace root_cause reasoning recommendations
               category in
  let lines :=
    if has_patch_section patch_yaml
    then lines ++ [patch_section patch_yaml]
    else lines in
  Text.join Text.nl lines.

End markdown_helper.

(* ===================================================================== *)
(** ** utils/dspy_helper.py *)
(* ===================================================================== *)

Module dspy_helper.
Import Re.

(** The parsed fields of a diagnosis. *)
Record Fields : Type := mkFields {
  root_cause : Text;
  reasoning : Text;
  recommendations : list Text;
  patch_yaml : Text;
  category : Text
}.

Definition build_prompt
    (kind name namespace describe events logs metrics signals : Text)
    : Text :=
    para ["";
          "You are an expert Site Reliability Engineer performing Root Cause Analysis on Kubernetes infrastructure.";
          "";
          "### Context";
          "Resource Kind: "]
    ++ kind
    ++ para ["";
          "Name: "]
    ++ name
    ++ para ["";
          "Namespace: "]
    ++ namespace
    ++ para ["";
          "Detected Signals: "]
    ++ signals
    ++ para ["";
          "";
          "### Cluster Describe";
          ""]
    ++ describe
    ++ para ["";
          "";
          "### Events";
          ""]
    ++ events
    ++ para ["";
          "";
          "### Logs";
          ""]
    ++ logs
    ++ para ["";
          "";
          "### Metrics";
          ""]
    ++ metrics
    ++ para ["";
          "";
          "---";
          "";
          "### Instruction";
          "Analyze the above data and identify:";
          "1. Root cause — concise one-line diagnosis.";
          "2. RCA Category: <Infra | Config | Application | Network | Image | Resource>";
          "3. Reasoning — 2-5 sentence summary explaining the causal chain.";
          "4. Recommendations — bullet points of actionable fixes.";
          "5.  YAML patch — minimal manifest changes to remediate (if relevant).  ";
          "If no manifest change is required (e.g., node or service issue), respond with:";
          "`Patch: # none`";
          "";
          "";
          "Respond **exactly** in this format:";
          "";
          "Root Cause: <one-line>";
          "RCA Category: <Infra | Config | Application | Network | Image | Resource>";
          "Reasoning: <multi-line short paragraph>";
          "Recommendations:";
          "- <item1>";
          "- <item2>";
          "Patch:";
          "```yaml";
          "<YAML fix or leave '# none'>";
          ""].

(** *** The patterns *)

(** [Root\s*Cause\s*:\s*(.*?)(?:Reasoning:|Recommendations:|Patch:|$)],
    IGNORECASE and DOTALL *)
Definition root_cause_re : re :=
  (lit_i (T "Root") >> StarG ws >> lit_i (T "Cause") >> StarG ws
   >> lit (T ":") >> StarG ws >> Grp (StarL any)
   >> (lit_i (T "Reasoning:") <|> lit_i (T "Recommendations:")
       <|> lit_i (T "Patch:") <|> Eos))%re.

(** [Reasoning\s*:\s*(.*?)(?:Recommendations:|Patch:|$)],
    IGNORECASE and DOTALL *)
Definition reasoning_re : re :=
  (lit_i (T "Reasoning") >> StarG ws >> lit (T ":") >> StarG ws
   >> Grp (StarL any)
   >> (lit_i (T "Recommendations:") <|> lit_i (T "Patch:") <|> Eos))%re.

(** [-\s+([^\n]+)] *)
Definition bullet_re : re :=
  (lit (T "-") >> PlusG ws >> Grp (PlusG not_nl))%re.

(** [```(?:yaml)?\s*(.*?)```], DOTALL and IGNORECASE *)
Definition fence_pattern : re :=
  (lit (T "```") >> Opt (lit_i (T "yaml")) >> StarG ws
   >> Grp (StarL any) >> lit (T "```"))%re.

(** [\b(spec|containers|image|metadata|apiVersion)\b] *)
Definition manifest_re : re :=
  (WordB
   >> Grp (lit (T "spec") <|> lit (T "containers") <|> lit (T "image")
           <|> lit (T "metadata") <|> lit (T "apiVersion"))
   >> WordB)%re.

(** [```+yaml] and [```+] *)
Definition tick (c : ascii) : bool := Text.eqc c "`".
Definition fence_yaml_re : re :=
  (lit (T "``") >> PlusG tick >> lit (T "yaml"))%re.
Definition fence_re : re := (lit (T "``") >> PlusG tick)%re.

(** [(spec:.*?)(?=\n\S|$)], DOTALL *)
Definition spec_block_re : re :=
  (Grp (lit (T "spec:") >> StarL any)
   >> Look ((lit Text.nl >> Chr non_ws) <|> Eos))%re.

(** [Root\s*Cause\s*:\s*(.*?)(?:\n|$)], IGNORECASE *)
Definition retry_root_cause_re : re :=
  (lit_i (T "Root") >> StarG ws >> lit_i (T "Cause") >> StarG ws
   >> lit (T ":") >> StarG ws >> Grp (StarL not_nl)
   >> (lit Text.nl <|> Eos))%re.

(** [-\s+(G)], where the group G is [.*] *)
Definition retry_bullet_re : re :=
  (lit (T "-") >> PlusG ws >> Grp (StarG not_nl))%re.

(** *** Step 4: the line-oriented parser *)

Record ParseState : Type := mkParse {
  fields : Fields;
  patch_lines : list Text;
  capture_patch : bool;
  capture_recs : bool;
  reasoning_lines : list Text
}.

Definition set_root_cause (v : Text) (f : Fields) : Fields :=
  mkFields v (reasoning f) (recommendations f) (patch_yaml f) (category f).
Definition set_reasoning (v : Text) (f : Fields) : Fields :=
  mkFields (root_cause f) v (recommendations f) (patch_yaml f) (category f).
Definition set_recommendations (v : list Text) (f : Fields) : Fields :=
  mkFields (root_cause f) (reasoning f) v (patch_yaml f) (category f).
Definition set_patch_yaml (v : Text) (f : Fields) : Fields :=
  mkFields (root_cause f) (reasoning f) (recommendations f) v (category f).
Definition set_category (v : Text) (f : Fields) : Fields :=
  mkFields (root_cause f) (reasoning f) (recommendations f) (patch_yaml f) v.

Definition empty_fields : Fields := mkFields [] [] [] [] [].

Definition init_state : ParseState := mkParse empty_fields [] false false [].

Definition is_empty (s : Text) : bool :=
  match s with [] => true | _ => false end.

(** Lines 129-140: the label of a category line. *)
Definition map_category (cat : Text) : Text :=
  if Text.contains (T "network") cat then T "Network Issue"
  else if Text.contains (T "image") cat then T "Image Issue"
  else if Text.contains (T "resource") cat then T "Resource Pressure"
  else if Text.contains (T "application") cat then T "Application Failure"
  else if Text.contains (T "probe") cat then T "Health Probe Failure"
  else cat.

Definition is_category_header (low : Text) : bool :=
  Text.startswith (T "rca category:") low
  || Text.startswith (T "category:") low.

(** The body of the loop of lines 116-164. *)
Definition parse_line (st : ParseState) (raw_line : Text) : ParseState :=
  let line := Text.strip raw_line in
  let low := Text.lower line in
  if is_empty line then st
  else if Text.startswith (T "root cause:") low then
    mkParse (set_root_cause (Text.strip (Text.after_colon line)) (fields st))
            (patch_lines st) false false (reasoning_lines st)
  else if is_category_header low then
    let cat := Text.capitalize (Text.strip (Text.after_colon line)) in
    mkParse (set_category (map_category cat) (fields st))
            (patch_lines st) (capture_patch st) (capture_recs st)
            (reasoning_lines st)
  else if Text.startswith (T "reasoning:") low then
    let r := Text.strip (Text.after_colon line) in
    mkParse (set_reasoning r (fields st))
            (patch_lines st) false false (reasoning_lines st ++ [r])
  else if Text.startswith (T "recommendations:") low then
    mkParse (fields st) (patch_lines st) false true (reasoning_lines st)
  else if Text.startswith (T "patch:") low
          || Text.startswith (T "suggested manifest patch:") low then
    mkParse (fields st) (patch_lines st) true false (reasoning_lines st)
  else if capture_recs st && Text.startswith (T "- ") line then
    let rec := Text.strip (skipn 2 line) in
    if negb (is_empty rec)
       && negb (Text.startswith (T "name:") (Text.lower rec))
    then mkParse (set_recommendations
                    (recommendations (fields st) ++ [rec]) (fields st))
                 (patch_lines st) (capture_patch st) (capture_recs st)
                 (reasoning_lines st)
    else st
  else if capture_patch st then
    mkParse (fields st) (patch_lines st ++ [line])
            (capture_patch st) (capture_recs st) (reasoning_lines st)
  else
    mkParse (fields st) (patch_lines st)
            (capture_patch st) (capture_recs st) (reasoning_lines st ++ [line]).

Definition parse_lines (text : Text) : ParseState :=
  List.fold_left parse_line (Text.splitlines text) init_state.

(** *** Step 5: the regex fallbacks *)

Definition fill_root_cause (text : Text) (f : Fields) : Fields :=
  if is_empty (root_cause f) then
    match search root_cause_re text with
    | Some rc_match => set_root_cause (Text.strip (group1 rc_match)) f
    | None => f
    end
  else f.

Definition fill_reasoning (text : Text) (reasoning_lines : list Text)
    (f : Fields) : Fields :=
  if is_empty (reasoning f) then
    match search reasoning_re text with
    | Some r_match => set_reasoning (Text.strip (group1 r_match)) f
    | None =>
        set_reasoning (Text.strip (Text.join Text.nl reasoning_lines)) f
    end
  else f.

(** [[r.strip() for r in recs if r.strip()]] *)
Definition stripped_nonempty (recs : list Text) : list Text :=
  List.filter (fun r => negb (is_empty r)) (List.map Text.strip recs).

Definition fill_recommendations (text : Text) (f : Fields) : Fields :=
  match recommendations f with
  | [] =>
      match stripped_nonempty (findall bullet_re text) with
      | [] => set_recommendations [T "No actionable recommendations found."] f
      | recs => set_recommendations recs f
      end
  | _ => f
  end.

(** Lines 186-193: the fenced blocks that look like a manifest, appended
    to the patch lines of the parser, and the whole joined. *)
Definition is_manifest (block : Text) : bool :=
  match search manifest_re block with Some _ => true | None => false end.

Definition fenced_patches (text : Text) : list Text :=
  List.map Text.strip (List.filter is_manifest (findall fence_pattern text)).

Definition combine_patches (patch_lines : list Text) : Text :=
  Text.join (Text.nl ++ Text.nl)
    (List.filter (fun p => negb (is_empty (Text.strip p))) patch_lines).

(** *** Step 6: the patch cleanup of lines 195-216 *)

(** Lines 201-206: keep a line unless its stripped text was seen. *)
Fixpoint dedup_lines (seen : list Text) (lines : list Text) : list Text :=
  match lines with
  | [] => []
  | line :: r =>
      if Text.mem (Text.strip line) seen then dedup_lines seen r
      else line :: dedup_lines (Text.strip line :: seen) r
  end.

(** [max(blocks, key=len)]: the first of the longest blocks. *)
Fixpoint max_by_len (best : Text) (blocks : list Text) : Text :=
  match blocks with
  | [] => best
  | b :: r =>
      max_by_len (if length best <? length b then b else best) r
  end.

(** Lines 196-198. *)
Definition strip_fences (patch_yaml : Text) : Text :=
  remove_all fence_re (remove_all fence_yaml_re (Text.strip patch_yaml)).

(** Lines 201-207. *)
Definition dedup_text (patch_yaml : Text) : Text :=
  Text.strip (Text.join Text.nl (dedup_lines [] (Text.splitlines patch_yaml))).

(** Line 210. *)
Definition yaml_blocks (patch_yaml : Text) : list Text :=
  findall spec_block_re patch_yaml.

(** Lines 210-212. *)
Definition keep_longest (patch_yaml : Text) : Text :=
  match yaml_blocks patch_yaml with
  | b :: (_ :: _) as blocks => Text.strip (max_by_len b blocks)
  | _ => patch_yaml
  end.

(** Lines 214-215. *)
Definition normalize_none (patch_yaml : Text) : Text :=
  if is_empty patch_yaml
     || Text.mem (Text.lower patch_yaml) [T "# none"; T "none"; T ""]
  then T "# none" else patch_yaml.

Definition patch_cleanup (patch_yaml : Text) : Text :=
  normalize_none (keep_longest (dedup_text (strip_fences patch_yaml))).

(** *** Step 7: the category heuristics *)

Definition any_in (keys : list string) (text : Text) : bool :=
  existsb (fun k => Text.contains (T k) text) keys.

Definition category_heuristic (combined_text : Text) : Text :=
  if any_in ["imagepull"; "imagepullbackoff"; "errimagepull";
             "image not found"; "failed to pull"] combined_text
  then T "Image Issue"
  else if any_in ["probe"; "readiness"; "liveness"] combined_text
  then T "Health Probe Failure"
  else if any_in ["memory"; "oom"; "pressure"; "oomkilled"; "out of memory"]
            combined_text
  then T "Resource Pressure"
  else if any_in ["dns"; "connection"; "timeout"] combined_text
  then T "Network Issue"
  else T "General Anomaly".

Definition fill_category (f : Fields) : Fields :=
  let combined_text :=
    Text.lower (root_cause f ++ T " " ++ reasoning f) in
  if is_empty (category f)
  then set_category (category_heuristic combined_text) f
  else f.

(** Steps 4 to 7 on the raw text of the backend. *)
Definition parse_output (text : Text) : Fields :=
  let st := parse_lines text in
  let f := fill_root_cause text (fields st) in
  let f := fill_reasoning text (reasoning_lines st) f in
  let f := fill_recommendations text f in
  let patch :=
    combine_patches (patch_lines st ++ fenced_patches text) in
  let f := set_patch_yaml (patch_cleanup patch) f in
  fill_category f.

(** *** Step 8: the smart retry *)

Definition retry_needed (f : Fields) : bool :=
  Text.contains (T "not identified") (Text.lower (root_cause f))
  || existsb (fun r => Text.contains (T "no actionable") (Text.lower r))
             (recommendations f).

Definition refined_prompt
    (kind name namespace describe events logs metrics signals : Text)
    : Text :=
  para ["Focus only on finding a concrete root cause and actionable fix.";
        "If metrics or events imply a cause, infer it.";
        "Object: "]
  ++ kind ++ T "/" ++ name ++ T " (ns=" ++ namespace
  ++ para [")"; "Describe:"; ""] ++ describe
  ++ para [""; ""; "Events:"; ""] ++ events
  ++ para [""; ""; "Logs:"; ""] ++ logs
  ++ para [""; ""; "Metrics:"; ""] ++ metrics
  ++ para [""; ""; "Signals:"; ""] ++ signals
  ++ Text.nl.

(** Lines 251-261. *)
Definition apply_retry (retry_text : Text) (f : Fields) : Fields :=
  let f :=
    match search retry_root_cause_re retry_text with
    | Some rc_match => set_root_cause (Text.strip (group1 rc_match)) f
    | None => f
    end in
  let f :=
    match findall retry_bullet_re retry_text with
    | [] => f
    | recs => set_recommendations (stripped_nonempty recs) f
    end in
  let f :=
    if is_empty (root_cause f)
    then set_root_cause
           (T "Root cause could not be inferred even after retry.") f
    else f in
  match recommendations f with
  | [] => set_recommendations [T "Manual investigation recommended."] f
  | _ => f
  end.

(** *** Step 9: the final validation *)

Definition final_validation (f : Fields) : Fields :=
  let f :=
    if is_empty (root_cause f)
    then set_root_cause (T "Root cause not identified.") f else f in
  if is_empty (reasoning f)
  then set_reasoning (T "No reasoning extracted from RCA output.") f
  else f.

(** *** The helper object and its two methods *)

(** The generative service behind [genai.GenerativeModel]: the text that
    [_generate] returns for a prompt, which is the reply, a notice that
    no text came back or the marker [[Gemini error: ...]]; [_generate]
    catches every exception. *)
Record InfraRCAHelper : Type := {
  backend : Log -> Model -> Text -> Text
}.

Definition _generate (self : InfraRCAHelper) (prompt : Text) (model : Model)
    : Eff.M Text :=
  Eff.call (EvGenerate model prompt)
           (fun l => Eff.Ok (backend self l model prompt)).

(** Lines 94-97: the primary model, then the fallback model on an empty
    reply or an error marker. *)
Definition generate_with_fallback (self : InfraRCAHelper) (prompt : Text)
    : Eff.M Text :=
  let! text := _generate self prompt Primary in
  if is_empty text || Text.startswith (T "[Gemini error") text
  then _generate self prompt Fallback
  else Eff.ret text.

(** Lines 233-261: one more call, to the fallback model, when the parsed
    result is too weak. *)
Definition smart_retry (self : InfraRCAHelper) (refined : Text)
    (fields : Fields) : Eff.M Fields :=
  if retry_needed fields then
    let! _ := Eff.tell (EvSleep 2) in
    let! retry_text := _generate self refined Fallback in
    Eff.ret (apply_retry retry_text fields)
  else Eff.ret fields.

Definition run_rca (self : InfraRCAHelper)
    (kind name namespace describe events logs metrics signals : Text)
    : Eff.M Fields :=
  let prompt :=
    build_prompt kind name namespace describe events logs metrics signals in
  let! text := generate_with_fallback self prompt in
  let fields := parse_output text in
  let! fields :=
    smart_retry self
      (refined_prompt kind name namespace describe events logs metrics
                      signals)
      fields in
  Eff.ret (final_validation fields).

(** The labels that the parser and the heuristics assign themselves
    (lines 130-138 and 222-230). *)
Definition assigned_labels : list Text :=
  [T "Network Issue"; T "Image Issue"; T "Resource Pressure";
   T "Application Failure"; T "Health Probe Failure"; T "General Anomaly"].

(** The fields after the retry: a root cause found in the retry text
    replaces the old one; the bullets of the retry text replace the old
    recommendations; a sentinel fills a field that is then empty. *)
Definition retried_root_cause (retry_text old : Text) : Text :=
  let found :=
    match search retry_root_cause_re retry_text with
    | Some rc_match => Text.strip (group1 rc_match)
    | None => old
    end in
  match found with
  | [] => T "Root cause could not be inferred even after retry."
  | _ => found
  end.

Definition retried_recommendations (retry_text : Text) (old : list Text)
    : list Text :=
  let found :=
    match findall retry_bullet_re retry_text with
    | [] => old
    | recs => stripped_nonempty recs
    end in
  match found with
  | [] => [T "Manual investigation recommended."]
  | _ => found
  end.


End dspy_helper.

(* ===================================================================== *)
(** ** utils/k8s_helper.py and utils/metrics_client.py *)
(* ===================================================================== *)

Module k8s_helper.

(** The dictionary that [collect_resource_data] returns; its values are
    read in this order. *)
Record Bundle : Type := mkBundle {
  describe : Text;
  events : Text;
  logs : Text;
  metrics : Text
}.

Definition values (data : Bundle) : list Text :=
  [describe data; events data; logs data; metrics data].

(** The cluster behind the helper, reached through the API client or
    through [kubectl]: the names of the namespaces (none when the API call
    fails), the names of the resources of a kind, and the texts collected
    for a resource. *)
Record K8sHelper : Type := {
  cluster_namespaces : Log -> list Text;
  cluster_resources : Log -> Text -> option Text -> list Text;
  resource_data : Log -> Text -> Text -> option Text -> Eff.outcome Bundle
}.

(** The set [skip] of line 74. *)
Definition skip : list Text :=
  [T "kube-system"; T "kube-public"; T "kube-node-lease"; T "monitoring"].

Definition list_namespaces (self : K8sHelper) (exclude_system : bool)
    : Eff.M (list Text) :=
  let! namespaces :=
    Eff.call (EvListNamespaces exclude_system)
             (fun l => Eff.Ok (cluster_namespaces self l)) in
  Eff.ret (if exclude_system
           then List.filter (fun n => negb (Text.mem n skip)) namespaces
           else namespaces).

Definition list_resources (self : K8sHelper) (kind : Text)
    (namespace : option Text) : Eff.M (list Text) :=
  Eff.call (EvListResources kind namespace)
           (fun l => Eff.Ok (cluster_resources self l kind namespace)).

Definition collect_resource_data (self : K8sHelper) (kind name : Text)
    (namespace : option Text) : Eff.M Bundle :=
  Eff.call (EvCollect kind name namespace)
           (fun l => resource_data self l kind name namespace).

End k8s_helper.

Module metrics_client.

Record MetricsClient : Type := {
  node_summary : Log -> Eff.outcome Text;
  pod_summary : Log -> Text -> Text -> Eff.outcome Text
}.

Definition summarize_nodes (self : MetricsClient) : Eff.M Text :=
  Eff.call EvSummarizeNodes (node_summary self).

Definition summarize_pod (self : MetricsClient) (namespace pod : Text)
    : Eff.M Text :=
  Eff.call (EvSummarizePod namespace pod)
           (fun l => pod_summary self l namespace pod).

End metrics_client.

(* ===================================================================== *)
(** ** agent.py *)
(* ===================================================================== *)

Module agent.
Import k8s_helper metrics_client.

(** The dictionary that the reasoning step hands back, read with
    [diag.get(key)]: a key may be missing or hold [None]. *)
Record Diag : Type := mkDiag {
  get_root_cause : option Text;
  get_reasoning : option Text;
  get_recommendations : option (list Text);
  get_patch_yaml : option Text;
  get_category : option Text
}.

Definition empty_diag : Diag := mkDiag None None None None None.


(** The signature of [self.rca.run_rca]. *)
Definition RunRca : Type :=
  Text -> Text -> Text -> Text -> Text -> Text -> Text -> Text -> Eff.M Diag.

Record AgenticInfraRCA : Type := {
  k8s : K8sHelper;
  metrics : MetricsClient;
  rca : RunRca;
  max_workers : nat
}.


(** *** extract_signals *)

Definition patterns : list (string * string) :=
  [("crashloopbackoff", "CrashLoopBackOff");
   ("back-off restarting", "CrashLoopBackOff");
   ("imagepullbackoff", "ImagePullBackOff");
   ("failed to pull image", "ImagePullBackOff");
   ("errimagepull", "ImagePullBackOff");
   ("oomkilled", "OOMKilled");
   ("memorypressure", "NodeMemoryPressure");
   ("diskpressure", "NodeDiskPressure");
   ("failedscheduling", "FailedScheduling");
   ("unschedulable", "FailedScheduling");
   ("evicted", "Evicted");
   ("node not ready", "NodeNotReady");
   ("dns", "DNSIssue");
   ("readinessprobe failed", "ProbeFailure");
   ("livenessprobe failed", "ProbeFailure");
   ("no such host", "DNSIssue");
   ("progressdeadlineexceeded", "FailedRollout");
   ("unavailable", "UnavailableReplicas");
   ("connection refused", "ServiceUnavailable");
   ("timeout", "TimeoutError");
   ("pod has unbound immediate persistentvolumeclaims", "PVCUnbound")].

(** Line 30. *)
Definition signal_text (data : Bundle) : Text :=
  Text.lower (Text.join (T " ") (values data)).

(** Lines 54-56: the set of signals. *)
Definition signal_set (data : Bundle) : gset Text :=
  let text := signal_text data in
  let signals : gset Text :=
    list_to_set
      (List.map (fun kv => T (snd kv))
         (List.filter (fun kv => Text.contains (T (fst kv)) text) patterns)) in
  if bool_decide (signals = ∅)
     && dspy_helper.any_in ["error"; "fail"; "exception"; "critical"] text
  then signals ∪ {[ T "GeneralError" ]}
  else signals.

Definition le (a b : Text) : Prop := Text.leb a b = true.

Global Instance le_dec : RelDecision le.
Proof. intros a b; unfold le; apply _. Defined.

(** [sorted(signals)] *)
Definition sorted (s : gset Text) : list Text :=
  merge_sort le (elements s).

Definition extract_signals (data : Bundle) : Text :=
  let signals := signal_set data in
  if decide (signals = ∅) then T "None"
  else Text.join (T ", ") (sorted signals).

(** *** analyze_resource *)

Record Result : Type := mkResult {
  kind : Text;
  name : Text;
  namespace : option Text;
  root_cause : Text;
  reasoning : Text;
  recommendations : list Text;
  patch_yaml : Text;
  category : Text;
  markdown : Text
}.

(** [o or d] for an optional string. *)
Definition or_text (o : option Text) (d : Text) : Text :=
  match o with
  | Some (c :: r) => c :: r
  | _ => d
  end.

(** The test of line 85 on the collected texts. *)
Definition nothing_to_analyze (data : Bundle) : bool :=
  negb (existsb (fun v => negb (dspy_helper.is_empty (Text.strip v)))
                (values data)).

Definition pod_like : list Text :=
  [T "pod"; T "deployment"; T "replicaset"; T "statefulset"].

Definition no_manifest_kinds : list Text :=
  [T "node"; T "service"; T "persistentvolume"; T "pvc"].

(** Lines 124-125, 126-132 and 133-134: the fallback texts. *)
Definition fallback_root_cause (root_cause : Text) : Text :=
  if dspy_helper.is_empty root_cause || (length root_cause <? 5)
  then T "Root cause not identifiable" else root_cause.

Definition fallback_reasoning (kind name : Text) (namespace : option Text)
    (signals reasoning : Text) : Text :=
  if dspy_helper.is_empty reasoning || (length reasoning <? 20)
  then T "No sufficient diagnostic context for " ++ kind ++ T " `" ++ name
       ++ T "` in namespace `" ++ or_text namespace (T "default")
       ++ T "`. Detected signals: " ++ signals
       ++ T ". Possible transient or resolved condition."
  else reasoning.

Definition fallback_recommendations (kind name : Text)
    (recommendations : list Text) : list Text :=
  match recommendations with
  | [] => [T "No specific remediation identified for " ++ kind ++ T " `"
           ++ name ++ T "`."]
  | _ => recommendations
  end.

(** Lines 137-141: the context-aware patch decision. *)
Definition trivial_patch (patch_yaml : Text) : bool :=
  dspy_helper.is_empty patch_yaml
  || Text.mem (Text.lower patch_yaml) [T "# none"; T "none"]
  || (length (Text.strip patch_yaml) <? 5).

Definition decide_patch (kind patch_yaml : Text) : Text :=
  if trivial_patch patch_yaml then
    if Text.mem (Text.lower kind) no_manifest_kinds then []
    else T "# No manifest change required."
  else patch_yaml.

(** Lines 99-114: the reasoning step; an exception leaves the empty
    dictionary. *)
Definition reasoning_step (self : AgenticInfraRCA) (kind name : Text)
    (namespace : option Text) (data : Bundle)
    (metrics_summary signals : Text) : Eff.M Diag :=
  Eff.try_catch
    (let! _ := Eff.tell (EvRunRca kind name) in
     rca self kind name (or_text namespace []) (describe data)
         (events data) (logs data) metrics_summary signals)
    (fun _ => Eff.ret empty_diag).

(** Lines 116-157: the fields read with their defaults, the fallbacks,
    the patch decision, the report and the structured result. *)
Definition structured_result (kind name : Text) (namespace : option Text)
    (signals : Text) (diag : Diag) : Result :=
  let root_cause := Text.strip (or_text (get_root_cause diag) []) in
  let reasoning := Text.strip (or_text (get_reasoning diag) []) in
  let recommendations := default [] (get_recommendations diag) in
  let patch_yaml := Text.strip (or_text (get_patch_yaml diag) []) in
  let category :=
    match Text.strip (or_text (get_category diag) []) with
    | [] => T "General Anomaly"
    | c => c
    end in
  let root_cause := fallback_root_cause root_cause in
  let reasoning :=
    fallback_reasoning kind name namespace signals reasoning in
  let recommendations :=
    fallback_recommendations kind name recommendations in
  let patch_yaml := decide_patch kind patch_yaml in
  let md :=
    markdown_helper.build_markdown_generic kind name namespace root_cause
      reasoning recommendations patch_yaml (Some category) in
  mkResult kind name namespace root_cause reasoning recommendations
           patch_yaml category md.

Definition analyze_resource (self : AgenticInfraRCA) (kind name : Text)
    (namespace : option Text) : Eff.M (option Result) :=
  let! data := collect_resource_data (k8s self) kind name namespace in
  if nothing_to_analyze data then Eff.ret None
  else
    let! metrics_summary :=
      (if Text.mem (Text.lower kind) pod_like
       then summarize_pod (metrics self)
              (or_text namespace (T "default")) name
       else summarize_nodes (metrics self)) in
    let! _ := Eff.tell EvExtractSignals in
    let signals := extract_signals data in
    let! diag :=
      reasoning_step self kind name namespace data metrics_summary signals in
    Eff.ret (Some (structured_result kind name namespace signals diag)).

(** *** analyze_cluster *)

Definition Resource : Type := (Text * Text * option Text)%type.

(** Lines 182-187: the resources of one kind in every namespace. *)
Fixpoint list_in_namespaces (self : AgenticInfraRCA) (kind : Text)
    (namespaces : list Text) : Eff.M (list Resource) :=
  match namespaces with
  | [] => Eff.ret []
  | ns :: rest =>
      let! names := list_resources (k8s self) kind (Some ns) in
      let! more := list_in_namespaces self kind rest in
      Eff.ret (List.map (fun name => (kind, name, Some ns)) names ++ more)
  end.

(** Lines 175-187. *)
Fixpoint enumerate (self : AgenticInfraRCA) (kinds namespaces : list Text)
    : Eff.M (list Resource) :=
  match kinds with
  | [] => Eff.ret []
  | kind :: rest =>
      let! found :=
        (if Text.eqb (Text.lower kind) (T "node") then
           let! nodes := list_resources (k8s self) (T "node") None in
           Eff.ret (List.map (fun n => (T "Node", n, None)) nodes)
         else list_in_namespaces self kind namespaces) in
      let! more := enumerate self rest namespaces in
      Eff.ret (found ++ more)
  end.

(** Lines 197-199: the tasks are submitted in the order of enumeration and
    [gather(..., return_exceptions=True)] hands back, in that order, the
    value or the exception of each.  The model runs them in that order. *)
Fixpoint gather (self : AgenticInfraRCA) (resources : list Resource)
    : Eff.M (list (Eff.outcome (option Result))) :=
  match resources with
  | [] => Eff.ret []
  | (k, n, ns) :: rest =>
      let! res :=
        Eff.try_catch
          (let! r := analyze_resource self k n ns in Eff.ret (Eff.Ok r))
          (fun e => Eff.ret (Eff.Raise e)) in
      let! more := gather self rest in
      Eff.ret (res :: more)
  end.


(** Lines 200-205: the fragment that a task contributes to the report. *)
Definition fragment (res : Eff.outcome (option Result)) : list Text :=
  match res with
  | Eff.Raise e => [T "# ⚠️ Analyzer error: " ++ e]
  | Eff.Ok (Some r) => [markdown r]
  | Eff.Ok None => []
  end.

Definition report_parts (results : list (Eff.outcome (option Result)))
    : list Text :=
  List.concat (List.map fragment results).

Definition delimiter : Text :=
  para [""; ""; "-------------------------------------------------------";
        ""; ""].

Definition default_kinds : list Text :=
  [T "Pod"; T "Node"; T "Deployment"; T "Service"].

Definition analyze_cluster (self : AgenticInfraRCA) (exclude_system : bool)
    (kinds : option (list Text)) : Eff.M Text :=
  let kinds := default default_kinds kinds in
  let! namespaces := list_namespaces (k8s self) exclude_system in
  match namespaces with
  | [] => Eff.ret []
  | _ =>
      let! resources := enumerate self kinds namespaces in
      match resources with
      | [] => Eff.ret []
      | _ =>
          let! _ := summarize_nodes (metrics self) in
          let! results := gather self resources in
          match report_parts results with
          | [] => Eff.ret []
          | parts =>
              let final := Text.join delimiter parts in
              let! _ :=
                Eff.tell (EvWriteFile (T "cluster_rca_report.md") final) in
              Eff.ret final
          end
      end
  end.

End agent.

(* ===================================================================== *)
(** ** watch_agent.py *)
(* ===================================================================== *)

Module watch_agent.

Local Open Scope Q_scope.

(** [RCA_COOLDOWN], in seconds.  Times are rational numbers of seconds. *)
Definition RCA_COOLDOWN : Q := 300.

(** The global [last_rca_time] and the content of [CACHE_FILE]. *)
Record Cache : Type := mkCache {
  last_rca_time : gmap Text Q;
  cache_file : option (gmap Text Q)
}.

(** [save_cache]: the whole map is written; a failure to write is caught
    and leaves the file as it was. *)
Definition save_cache (writable : bool) (st : Cache) : Cache :=
  if writable
  then mkCache (last_rca_time st) (Some (last_rca_time st))
  else st.

(** The text of [ns] in an f-string. *)
Definition fmt (ns : option Text) : Text :=
  match ns with Some n => n | None => T "None" end.

Definition cache_key (kind name : Text) (ns : option Text) : Text :=
  (kind ++ T ":" ++ name ++ T ":" ++ fmt ns)%list.

Definition Qltb (a b : Q) : bool := negb (Qle_bool b a).

(** [now] is the reading of [time.time()]. *)
Definition should_skip_rca (kind name : Text) (ns : option Text)
    (now : Q) (writable : bool) (st : Cache) : bool * Cache :=
  let key := cache_key kind name ns in
  match last_rca_time st !! key with
  | Some last =>
      if Qltb (now - last) RCA_COOLDOWN then (true, st)
      else (false,
            save_cache writable
              (mkCache (<[key := now]> (last_rca_time st)) (cache_file st)))
  | None =>
      (false,
       save_cache writable
         (mkCache (<[key := now]> (last_rca_time st)) (cache_file st)))
  end.

End watch_agent.

(* ===================================================================== *)
(** ** Worked inputs *)
(* ===================================================================== *)

(** Concrete clusters, backends and replies on which the functions above
    are run in the examples that accompany the properties. *)

Module demo.
Import k8s_helper metrics_client agent.

(** A reasoning step that always raises. *)
Definition failing_rca : RunRca :=
  fun _ _ _ _ _ _ _ _ => Eff.raise (T "backend unreachable").

(** A pod whose collected texts are all blank. *)
Definition blank_bundle : Bundle :=
  mkBundle (T "  ") [] (T " ") Text.nl.

Definition quiet_cluster : K8sHelper :=
  {| cluster_namespaces := fun _ => [T "kube-system"; T "monitoring"];
     cluster_resources := fun _ _ _ => [T "web-0"];
     resource_data := fun _ _ _ _ => Eff.Ok blank_bundle |}.

Definition no_metrics : MetricsClient :=
  {| node_summary := fun _ => Eff.Ok (T "No node metrics available");
     pod_summary := fun _ _ _ => Eff.Ok (T "metrics unavailable") |}.

Definition quiet_agent : AgenticInfraRCA :=
  {| k8s := quiet_cluster; metrics := no_metrics; rca := failing_rca;
     max_workers := 6 |}.

(** A pod in a crash loop, and a reasoning step that fails on it. *)
Definition crash_bundle : Bundle :=
  mkBundle (T "State: Waiting, Reason: CrashLoopBackOff") []
           (T "OOMKilled") (T "cpu: 10m").

Definition crash_cluster : K8sHelper :=
  {| cluster_namespaces := fun _ => [T "default"];
     cluster_resources := fun _ _ _ => [T "a"; T "b"; T "c"];
     resource_data := fun _ _ name _ =>
       if Text.eqb name (T "b") then Eff.Raise (T "connection reset")
       else Eff.Ok crash_bundle |}.

Definition crash_agent : AgenticInfraRCA :=
  {| k8s := crash_cluster; metrics := no_metrics; rca := failing_rca;
     max_workers := 6 |}.






(** A backend that answers the diagnosis prompt with one text and the
    refined prompt of the retry with another. *)
Definition two_replies (first retry : Text) : dspy_helper.InfraRCAHelper :=
  {| dspy_helper.backend := fun _ _ prompt =>
       if Text.startswith (T "Focus only") prompt then retry else first |}.

(** A reply with a concrete root cause, one actionable recommendation and
    one remark that nothing is actionable on the storage side. *)
Definition disk_reply : Text :=
  para ["Root Cause: Disk is full on the data volume";
        "Reasoning: The volume reached its capacity and writes fail.";
        "Recommendations:";
        "- Free space on the data volume";
        "- No actionable change on the storage class"].

Definition disk_retry_reply : Text :=
  para ["Root Cause: Log files filled the data volume";
        "- Rotate the log files"].


(** A reply without diagnosis, and a retry that brings nothing usable. *)
Definition unknown_reply : Text := T "Root Cause: not identified".

Definition useless_retry_reply : Text := T "I cannot tell.".


(** A cache that has never seen a resource, and no cache file yet. *)
Definition fresh_cache : watch_agent.Cache := watch_agent.mkCache ∅ None.

End demo.

(** The words of the specification that the code has no name for. *)
Module spec_words.

(** The fixed label set of the category of a diagnosis. *)
Definition category_labels : list Text :=
  [T "Infra"; T "Config"; T "Application Failure"; T "Network Issue";
   T "Image Issue"; T "Resource Pressure"; T "Health Probe Failure";
   T "General Anomaly"].

(** A root cause that indicates non-identification, and a list of
    recommendations each of which is a 'no actionable' placeholder. *)
Definition not_identified (root_cause : Text) : bool :=
  Text.contains (T "not identified") (Text.lower root_cause).

Definition every_placeholder (recommendations : list Text) : bool :=
  forallb (fun r => Text.contains (T "no actionable") (Text.lower r))
          recommendations.


End spec_words.

(** Shapes of text used to state what the cleanup of a patch preserves. *)
Module shape.

(** A line without a line boundary, and a text whose only line boundary is
    the line feed. *)
Definition break_free (l : Text) : bool :=
  forallb (fun c => negb (Text.is_linebreak c)) l.

Definition simple_breaks (s : Text) : bool :=
  forallb (fun c => negb (Text.is_linebreak c) || Text.eqc c "010") s.

(** The lines of a text without its trailing blank: the blank lines at the
    end are dropped and the last line left is trimmed on the right. *)
Fixpoint trim_end (lines : list Text) : list Text :=
  match lines with
  | [] => []
  | l :: ls =>
      match trim_end ls with
      | [] => match Text.rstrip l with [] => [] | l' => [l'] end
      | ls' => l :: ls'
      end
  end.

(** The number of backticks at the head of a text. *)
Fixpoint ticks (s : Text) : nat :=
  match s with
  | c :: r => if dspy_helper.tick c then S (ticks r) else 0
  | [] => 0
  end.

(** No run of three backticks, [k] backticks having just been read. *)
Fixpoint fence_free_from (k : nat) (s : Text) : bool :=
  match s with
  | [] => true
  | c :: r =>
      if dspy_helper.tick c
      then (k + 1 <? 3) && fence_free_from (k + 1) r
      else fence_free_from 0 r
  end.

Definition fence_free (s : Text) : bool := fence_free_from 0 s.

(** The keys under which the lines of a patch are compared. *)
Definition keys (lines : list Text) : list Text := List.map Text.strip lines.

End shape.

(* ===================================================================== *)
(** ** Properties *)
(* ===================================================================== *)

Import k8s_helper metrics_client agent.

(** *** The single-resource analyzer on an empty bundle *)

Lemma strip_nil_is_empty (s : Text) :
  dspy_helper.is_empty (Text.strip s) = true <-> Text.strip s = [].
Proof. destruct (Text.strip s); simpl; split; congruence. Qed.

Lemma nothing_to_analyze_blank (data : Bundle) :
  Forall (fun v => Text.strip v = []) (values data) ->
  nothing_to_analyze data = true.
Proof.
  intros H. unfold nothing_to_analyze.
  apply negb_true_iff, not_true_is_false. intros Hex.
  apply existsb_exists in Hex as (v & Hin & Hv).
  rewrite Forall_forall in H.
  rewrite (H v) in Hv by (apply list_elem_of_In; exact Hin).
  discriminate.
Qed.

Theorem C9_blank_bundle_is_absent (self : AgenticInfraRCA)
    (kind name : Text) (ns : option Text) (l : Log) (data : Bundle) :
  resource_data (k8s self) l kind name ns = Eff.Ok data ->
  Forall (fun v => Text.strip v = []) (values data) ->
  analyze_resource self kind name ns l
  = (Eff.Ok None, l ++ [EvCollect kind name ns]).
Proof.
  intros Hdata Hblank.
  unfold analyze_resource, Eff.bind, collect_resource_data, Eff.call.
  rewrite Hdata, (nothing_to_analyze_blank data Hblank).
  reflexivity.
Qed.

Lemma list_namespaces_all_system (self : K8sHelper) (l : Log) :
  Forall (fun n => Text.mem n skip = true) (cluster_namespaces self l) ->
  list_namespaces self true l = (Eff.Ok [], l ++ [EvListNamespaces true]).
Proof.
  intros H. unfold list_namespaces, Eff.bind, Eff.call, Eff.ret.
  f_equal. f_equal.
  induction H as [|n ns Hn _ IH]; [reflexivity|].
  cbn [List.filter]. rewrite Hn. exact IH.
Qed.

Theorem C10_no_namespaces_no_analysis (self : AgenticInfraRCA)
    (exclude_system : bool) (kinds : option (list Text)) (l : Log) :
  fst (list_namespaces (k8s self) exclude_system l) = Eff.Ok [] ->
  analyze_cluster self exclude_system kinds l
  = (Eff.Ok [], l ++ [EvListNamespaces exclude_system]).
Proof.
  intros H. unfold analyze_cluster.
  unfold Eff.bind at 1.
  destruct (list_namespaces (k8s self) exclude_system l) as [o l'] eqn:E.
  simpl in H. subst o.
  assert (l' = l ++ [EvListNamespaces exclude_system]) as ->.
  { unfold list_namespaces, Eff.bind, Eff.call, Eff.ret in E.
    inversion E; reflexivity. }
  reflexivity.
Qed.

(** C9 at a pod whose four collected texts are blank. *)
Lemma C9_witness :
  analyze_resource demo.quiet_agent (T "Pod") (T "web-0")
                   (Some (T "default")) []
  = (Eff.Ok None, [EvCollect (T "Pod") (T "web-0") (Some (T "default"))]).
Proof.
  apply (C9_blank_bundle_is_absent demo.quiet_agent (T "Pod") (T "web-0")
           (Some (T "default")) [] demo.blank_bundle).
  - reflexivity.
  - repeat constructor.
Defined.

(** C10 at a cluster whose only namespaces are on the deny-list. *)
Lemma C10_witness :
  analyze_cluster demo.quiet_agent true None []
  = (Eff.Ok [], [EvListNamespaces true]).
Proof.
  apply (C10_no_namespaces_no_analysis demo.quiet_agent true None []).
  reflexivity.
Defined.

(** *** The structured result of the analyzer *)

Lemma reasoning_step_returns (self : AgenticInfraRCA) (kind name : Text)
    (ns : option Text) (data : Bundle) (ms sig : Text) (l : Log) :
  exists diag l',
    reasoning_step self kind name ns data ms sig l = (Eff.Ok diag, l').
Proof.
  unfold reasoning_step, Eff.try_catch, Eff.bind, Eff.tell, Eff.ret.
  destruct (rca self kind name (or_text ns []) (describe data) (events data)
              (logs data) ms sig (l ++ [EvRunRca kind name]))
    as [[d|e] l']; eauto.
Qed.

(** A returned result is the structured result of some diagnosis that the
    reasoning step handed back for the collected bundle. *)
Lemma analyze_resource_inv (self : AgenticInfraRCA) (kind name : Text)
    (ns : option Text) (l l' : Log) (r : Result) :
  analyze_resource self kind name ns l = (Eff.Ok (Some r), l') ->
  exists data ms diag l1,
    reasoning_step self kind name ns data ms (extract_signals data) l1
    = (Eff.Ok diag, l')
    /\ r = structured_result kind name ns (extract_signals data) diag.
Proof.
  unfold analyze_resource, Eff.bind at 1.
  destruct (collect_resource_data (k8s self) kind name ns l)
    as [[data|e] l0]; [|discriminate].
  destruct (nothing_to_analyze data); [discriminate|].
  unfold Eff.bind at 1.
  destruct ((if Text.mem (Text.lower kind) pod_like
             then summarize_pod (metrics self) (or_text ns (T "default")) name
             else summarize_nodes (metrics self)) l0)
    as [[ms|e] l1]; [|discriminate].
  unfold Eff.bind at 1, Eff.tell at 1.
  unfold Eff.bind at 1.
  destruct (reasoning_step self kind name ns data ms (extract_signals data)
              (l1 ++ [EvExtractSignals])) as [[diag|e] l2] eqn:E;
    [|discriminate].
  unfold Eff.ret. intros H. inversion H; subst.
  exists data, ms, diag, (l1 ++ [EvExtractSignals]). split; [exact E|reflexivity].
Qed.

Lemma fallback_root_cause_nonempty (s : Text) : fallback_root_cause s <> [].
Proof.
  unfold fallback_root_cause.
  destruct s; simpl; [discriminate|].
  destruct (_ <? _); discriminate.
Qed.

Lemma fallback_reasoning_nonempty (kind name : Text) (ns : option Text)
    (sig s : Text) :
  fallback_reasoning kind name ns sig s <> [].
Proof.
  unfold fallback_reasoning.
  destruct s; simpl; [discriminate|].
  destruct (_ <? _); discriminate.
Qed.

Lemma fallback_recommendations_length (kind name : Text) (recs : list Text) :
  1 <= length (fallback_recommendations kind name recs).
Proof. destruct recs; simpl; lia. Qed.

(** C3: a result that the analyzer returns has a non-empty root cause, a
    non-empty reasoning and at least one recommendation, whatever the
    reasoning step returned or raised. *)
Theorem C3_result_fields_populated (self : AgenticInfraRCA)
    (kind name : Text) (ns : option Text) (l l' : Log) (r : Result) :
  analyze_resource self kind name ns l = (Eff.Ok (Some r), l') ->
  root_cause r <> [] /\ reasoning r <> [] /\ 1 <= length (recommendations r).
Proof.
  intros H.
  apply analyze_resource_inv in H as (data & ms & diag & l1 & _ & ->).
  unfold structured_result; cbn [root_cause reasoning recommendations].
  split; [apply fallback_root_cause_nonempty|].
  split; [apply fallback_reasoning_nonempty|].
  apply fallback_recommendations_length.
Qed.

(** C3 at a pod in a crash loop whose reasoning step raises. *)
Lemma C3_witness :
  exists r l',
    analyze_resource demo.crash_agent (T "Pod") (T "a") None []
    = (Eff.Ok (Some r), l')
    /\ root_cause r <> [] /\ reasoning r <> []
    /\ 1 <= length (recommendations r).
Proof.
  eexists _, _. split.
  - vm_compute. reflexivity.
  - eapply (C3_result_fields_populated demo.crash_agent (T "Pod") (T "a")
              None []).
    vm_compute. reflexivity.
Defined.

(** *** The patch of a kind without manifest *)







(** *** The cluster scan *)






(** The scan of the three pods: two reports built on the fallback texts
    and, between them, the fragment of the task that raised. *)
Example scan_with_failing_task :
  let report n :=
    markdown (structured_result (T "Pod") n (Some (T "default"))
                (T "CrashLoopBackOff, OOMKilled") empty_diag) in
  fst (analyze_cluster demo.crash_agent false (Some [T "Pod"]) [])
  = Eff.Ok (report (T "a") ++ delimiter
            ++ T "# ⚠️ Analyzer error: connection reset" ++ delimiter
            ++ report (T "c")).
Proof. vm_compute. reflexivity. Qed.

(** *** The cooldown cache *)

Section Cooldown.
Import watch_agent.
Local Open Scope Q_scope.

Lemma Qltb_lt (a b : Q) : Qltb a b = true <-> a < b.
Proof.
  unfold Qltb. rewrite negb_true_iff. split.
  - intros H. apply Qnot_le_lt. intros Hle.
    apply Qle_bool_iff in Hle. congruence.
  - intros H. apply not_true_is_false. intros Hle.
    apply Qle_bool_iff in Hle. lra.
Qed.

Lemma Qltb_ge (a b : Q) : Qltb a b = false <-> b <= a.
Proof.
  unfold Qltb. rewrite negb_false_iff. apply Qle_bool_iff.
Qed.

Lemma save_cache_map (writable : bool) (st : Cache) :
  last_rca_time (save_cache writable st) = last_rca_time st.
Proof. destruct writable; reflexivity. Qed.

(** A check that does not skip has marked the key with the time of the
    check. *)
Lemma should_skip_rca_marks (kind name : Text) (ns : option Text) (now : Q)
    (writable : bool) (st : Cache) :
  fst (should_skip_rca kind name ns now writable st) = false ->
  last_rca_time (snd (should_skip_rca kind name ns now writable st))
  = <[cache_key kind name ns := now]> (last_rca_time st).
Proof.
  unfold should_skip_rca.
  destruct (last_rca_time st !! cache_key kind name ns) as [last|];
    [destruct (Qltb (now - last) RCA_COOLDOWN)|]; cbn [fst snd];
    try discriminate; intros _; apply save_cache_map.
Qed.

(** C4: a check within the window of the last mark skips and changes
    nothing; any other check marks the key with the current time and does
    not skip; hence, after a check that did not skip, a second check within
    the window skips and a check after the window does not. *)
Theorem C4_check_and_mark (kind name : Text) (ns : option Text) (now : Q)
    (writable : bool) (st : Cache) :
  let key := cache_key kind name ns in
  let first := should_skip_rca kind name ns now writable st in
  (forall last,
      last_rca_time st !! key = Some last -> now - last < RCA_COOLDOWN ->
      first = (true, st))
  /\ ((forall last,
          last_rca_time st !! key = Some last ->
          RCA_COOLDOWN <= now - last) ->
      fst first = false
      /\ last_rca_time (snd first) = <[key := now]> (last_rca_time st))
  /\ (forall (t2 t3 : Q) (w2 w3 : bool),
         fst first = false ->
         t2 - now < RCA_COOLDOWN -> RCA_COOLDOWN <= t3 - now ->
         let second := should_skip_rca kind name ns t2 w2 (snd first) in
         second = (true, snd first)
         /\ fst (should_skip_rca kind name ns t3 w3 (snd second)) = false).
Proof.
  intros key first. split; [|split].
  - intros last Hl Hlt. subst first. unfold should_skip_rca.
    fold key. rewrite Hl.
    apply Qltb_lt in Hlt. rewrite Hlt. reflexivity.
  - intros Hstale.
    assert (fst first = false) as Hf.
    { subst first. unfold should_skip_rca. fold key.
      destruct (last_rca_time st !! key) as [last|] eqn:Hl; [|reflexivity].
      specialize (Hstale last eq_refl). apply Qltb_ge in Hstale.
      rewrite Hstale. reflexivity. }
    split; [exact Hf|].
    apply should_skip_rca_marks, Hf.
  - intros t2 t3 w2 w3 Hf H2 H3 second.
    pose proof (should_skip_rca_marks kind name ns now writable st Hf) as Hm.
    fold first key in Hm.
    assert (second = (true, snd first)) as Hs.
    { subst second. unfold should_skip_rca at 1. fold key.
      rewrite Hm, lookup_insert_eq.
      apply Qltb_lt in H2. rewrite H2. reflexivity. }
    split; [exact Hs|].
    rewrite Hs. cbn [snd]. unfold should_skip_rca. fold key.
    rewrite Hm, lookup_insert_eq.
    apply Qltb_ge in H3. rewrite H3. reflexivity.
Qed.

(** C4 at a fresh cache: checks at 1000 s, 1100 s and 1300 s. *)
Lemma C4_witness :
  let check t st :=
    should_skip_rca (T "Pod") (T "web-0") (Some (T "default")) t true st in
  let first := check 1000 demo.fresh_cache in
  fst first = false
  /\ check 1100 (snd first) = (true, snd first)
  /\ fst (check 1300 (snd (check 1100 (snd first)))) = false.
Proof.
  intros check first.
  destruct (C4_check_and_mark (T "Pod") (T "web-0") (Some (T "default"))
              1000 true demo.fresh_cache) as (_ & Hb & Hc).
  assert (fst first = false) as Hf.
  { apply Hb. intros last Hl. unfold demo.fresh_cache in Hl.
    cbn [last_rca_time] in Hl. rewrite lookup_empty in Hl. discriminate. }
  split; [exact Hf|].
  apply (Hc 1100 1300 true true Hf); unfold RCA_COOLDOWN; lra.
Defined.

End Cooldown.

(** *** The signal extractor *)

(** The order of [sorted] is total and transitive. *)
Lemma ltb_asym (a b : Text) : Text.ltb a b = true -> Text.ltb b a = false.
Proof.
  revert b. induction a as [|x a IH]; intros [|y b]; simpl; try congruence.
  intros H. apply orb_true_iff in H as [H|H].
  - apply Nat.ltb_lt in H.
    apply orb_false_iff. split.
    + apply Nat.ltb_ge. lia.
    + apply andb_false_iff. left. apply Nat.eqb_neq. lia.
  - apply andb_true_iff in H as [He H]. apply Nat.eqb_eq in He.
    apply orb_false_iff. split.
    + apply Nat.ltb_ge. lia.
    + apply andb_false_iff. right. apply IH, H.
Qed.

Lemma ltb_cotrans (a b c : Text) :
  Text.ltb a c = true -> Text.ltb a b = true \/ Text.ltb b c = true.
Proof.
  revert b c. induction a as [|x a IH]; intros [|y b] [|z c]; simpl;
    try congruence; auto.
  intros H. apply orb_true_iff in H as [H|H].
  - apply Nat.ltb_lt in H.
    destruct (Nat.ltb_spec (Text.code x) (Text.code y)) as [Hxy|Hxy];
      [left; reflexivity|].
    right. apply orb_true_iff. left. apply Nat.ltb_lt. lia.
  - apply andb_true_iff in H as [He H]. apply Nat.eqb_eq in He.
    destruct (Nat.ltb_spec (Text.code x) (Text.code y)) as [Hxy|Hxy];
      [left; reflexivity|].
    destruct (Nat.ltb_spec (Text.code y) (Text.code z)) as [Hyz|Hyz];
      [right; reflexivity|].
    assert (Text.code x = Text.code y) as Exy by lia.
    assert (Text.code y = Text.code z) as Eyz by lia.
    rewrite Exy, Eyz, !Nat.eqb_refl. simpl.
    apply IH, H.
Qed.

#[local] Instance le_total : Total le.
Proof.
  intros a b. unfold le, Text.leb.
  destruct (Text.ltb b a) eqn:E; [right|left; reflexivity].
  rewrite (ltb_asym b a E). reflexivity.
Qed.

#[local] Instance le_trans : Transitive le.
Proof.
  intros a b c. unfold le, Text.leb. rewrite !negb_true_iff.
  intros Hab Hbc.
  destruct (Text.ltb c a) eqn:E; [|reflexivity].
  destruct (ltb_cotrans c b a E); congruence.
Qed.






(** *** The reasoning client: what [run_rca] computes *)

Section Reasoning.
Import dspy_helper.

Lemma generate_with_fallback_returns (self : InfraRCAHelper) (prompt : Text)
    (l : Log) :
  exists text l1, generate_with_fallback self prompt l = (Eff.Ok text, l1).
Proof.
  unfold generate_with_fallback, Eff.bind, _generate, Eff.call, Eff.ret.
  destruct (_ || _); eauto.
Qed.

(** [run_rca] after the reply of the backend: parse, retry once if the
    parsed fields are too weak, validate. *)
Lemma run_rca_unfold (self : InfraRCAHelper)
    (kind name namespace describe events logs metrics signals : Text)
    (l l1 : Log) (text : Text) :
  generate_with_fallback self
    (build_prompt kind name namespace describe events logs metrics signals) l
  = (Eff.Ok text, l1) ->
  run_rca self kind name namespace describe events logs metrics signals l
  = let parsed := parse_output text in
    let refined :=
      refined_prompt kind name namespace describe events logs metrics
                     signals in
    if retry_needed parsed then
      (Eff.Ok (final_validation
                 (apply_retry (backend self (l1 ++ [EvSleep 2]) Fallback
                                       refined) parsed)),
       (l1 ++ [EvSleep 2]) ++ [EvGenerate Fallback refined])
    else (Eff.Ok (final_validation parsed), l1).
Proof.
  intros H. unfold run_rca. unfold Eff.bind at 1. rewrite H.
  unfold Eff.bind at 1, smart_retry. cbv zeta.
  destruct (retry_needed (parse_output text)); reflexivity.
Qed.

(** **** The category *)














(** The labels that the client assigns are labels of the fixed set. *)
Example assigned_labels_in_label_set :
  forallb (fun c => Text.mem c spec_words.category_labels) assigned_labels
  = true.
Proof. reflexivity. Qed.

(** **** The smart retry *)

Lemma parse_output_recommendations (text : Text) :
  recommendations (parse_output text) <> [].
Proof.
  unfold parse_output, fill_category. cbv zeta.
  match goal with
  | |- recommendations (if ?b then _ else _) <> [] => destruct b
  end; unfold set_category, set_patch_yaml; cbn [recommendations];
    unfold fill_recommendations;
    (destruct (recommendations (fill_reasoning _ _ _)) eqn:E;
     [destruct (stripped_nonempty _)|]; cbn [recommendations set_recommendations];
     try rewrite E; discriminate).
Qed.

Lemma final_validation_recommendations (f : Fields) :
  recommendations (final_validation f) = recommendations f.
Proof.
  unfold final_validation. cbv zeta.
  repeat match goal with
         | |- context [if ?b then _ else _] => destruct b
         end; reflexivity.
Qed.

Lemma final_validation_root_cause (f : Fields) :
  root_cause f <> [] -> root_cause (final_validation f) = root_cause f.
Proof.
  intros H. unfold final_validation. cbv zeta.
  destruct (root_cause f) eqn:E; [congruence|].
  cbn [is_empty]. rewrite <- E.
  destruct (is_empty (reasoning f)); reflexivity.
Qed.

Lemma apply_retry_root_cause (retry_text : Text) (f : Fields) :
  root_cause (apply_retry retry_text f)
  = retried_root_cause retry_text (root_cause f).
Proof.
  unfold apply_retry, retried_root_cause. cbv zeta.
  destruct (Re.search retry_root_cause_re retry_text) as [m|];
    destruct (Re.findall retry_bullet_re retry_text) as [|b bs];
    unfold set_root_cause, set_recommendations; cbn [root_cause recommendations];
    repeat match goal with
           | |- context [match ?x with _ => _ end] => destruct x eqn:?
           end; cbn [root_cause is_empty] in *; congruence.
Qed.

Lemma apply_retry_recommendations (retry_text : Text) (f : Fields) :
  recommendations (apply_retry retry_text f)
  = retried_recommendations retry_text (recommendations f).
Proof.
  unfold apply_retry, retried_recommendations. cbv zeta.
  destruct (Re.search retry_root_cause_re retry_text) as [m|];
    destruct (Re.findall retry_bullet_re retry_text) as [|b bs];
    unfold set_root_cause, set_recommendations; cbn [root_cause recommendations];
    repeat match goal with
           | |- context [match ?x with _ => _ end] => destruct x eqn:?
           end; cbn [recommendations is_empty] in *; congruence.
Qed.

Lemma retried_root_cause_nonempty (retry_text old : Text) :
  retried_root_cause retry_text old <> [].
Proof.
  unfold retried_root_cause. cbv zeta.
  destruct (match Re.search _ _ with Some _ => _ | None => _ end);
    discriminate.
Qed.

(** The refined prompt embeds the same eight texts in a shorter frame. *)
Lemma refined_prompt_shorter
    (kind name namespace describe events logs metrics signals : Text) :
  length (refined_prompt kind name namespace describe events logs metrics
                         signals)
  < length (build_prompt kind name namespace describe events logs metrics
                         signals).
Proof.
  unfold refined_prompt, build_prompt.
  rewrite !length_app.
  repeat match goal with
         | |- context [length (para ?x)] =>
             let n := eval vm_compute in (length (para x)) in
             change (length (para x)) with n
         | |- context [length (T ?x)] =>
             let n := eval vm_compute in (length (T x)) in
             change (length (T x)) with n
         | |- context [length Text.nl] =>
             change (length Text.nl) with 1
         end.
  lia.
Qed.

(** C5 as stated fails twice.  A retry is issued although the root cause
    is identified and only one of the two recommendations is a placeholder;
    and a retry that brings nothing usable leaves the old root cause and
    recommendations in place, without any sentinel. *)
Lemma C5_counterexample :
  (exists f l',
      run_rca (demo.two_replies demo.disk_reply demo.disk_retry_reply)
              (T "Pod") (T "db-0") (T "default") (T "Status: Running") [] []
              (T "cpu: 10m") (T "None") []
      = (Eff.Ok f, l')
      /\ (let parsed := parse_output demo.disk_reply in
          spec_words.not_identified (root_cause parsed) = false
          /\ spec_words.every_placeholder (recommendations parsed) = false)
      /\ l' = [EvGenerate Primary
                 (build_prompt (T "Pod") (T "db-0") (T "default")
                    (T "Status: Running") [] [] (T "cpu: 10m") (T "None"));
               EvSleep 2;
               EvGenerate Fallback
                 (refined_prompt (T "Pod") (T "db-0") (T "default")
                    (T "Status: Running") [] [] (T "cpu: 10m") (T "None"))]
      /\ root_cause f = T "Log files filled the data volume")
  /\ (exists f l',
         run_rca (demo.two_replies demo.unknown_reply
                                   demo.useless_retry_reply)
                 (T "Pod") (T "db-0") (T "default") (T "Status: Running") []
                 [] (T "cpu: 10m") (T "None") []
         = (Eff.Ok f, l')
         /\ length l' = 3
         /\ root_cause f = T "not identified"
         /\ recommendations f = [T "No actionable recommendations found."]).
Proof.
  split; eexists _, _; repeat split; vm_compute; reflexivity.
Qed.

(** C5, amended: the client issues one more call, to the fallback model
    and with the shorter refined prompt, exactly when the parsed root cause
    contains [not identified] or some recommendation contains
    [no actionable]; a root cause or bullets found in the retry text
    replace the old values, and a sentinel is set only for a field that is
    empty afterwards. *)
Theorem C5_retry_once_when_weak (self : InfraRCAHelper)
    (kind name namespace describe events logs metrics signals : Text)
    (l : Log) :
  let prompt :=
    build_prompt kind name namespace describe events logs metrics signals in
  let refined :=
    refined_prompt kind name namespace describe events logs metrics signals in
  exists text l1 f l2,
    generate_with_fallback self prompt l = (Eff.Ok text, l1)
    /\ run_rca self kind name namespace describe events logs metrics signals l
       = (Eff.Ok f, l2)
    /\ length refined < length prompt
    /\ let parsed := parse_output text in
       let weak :=
         Text.contains (T "not identified") (Text.lower (root_cause parsed))
         || existsb (fun r => Text.contains (T "no actionable") (Text.lower r))
                    (recommendations parsed) in
       (weak = true ->
        l2 = l1 ++ [EvSleep 2; EvGenerate Fallback refined]
        /\ let retry_text :=
             backend self (l1 ++ [EvSleep 2]) Fallback refined in
           root_cause f
           = retried_root_cause retry_text (root_cause parsed)
           /\ recommendations f
              = retried_recommendations retry_text (recommendations parsed))
       /\ (weak = false -> l2 = l1 /\ f = final_validation parsed).
Proof.
  intros prompt refined.
  destruct (generate_with_fallback_returns self prompt l)
    as (text & l1 & Hgen).
  exists text, l1.
  subst prompt. rewrite (run_rca_unfold _ _ _ _ _ _ _ _ _ _ _ _ Hgen).
  cbv zeta. fold refined.
  change (Text.contains (T "not identified")
            (Text.lower (root_cause (parse_output text)))
          || existsb (fun r => Text.contains (T "no actionable")
                                 (Text.lower r))
                     (recommendations (parse_output text)))
    with (retry_needed (parse_output text)).
  destruct (retry_needed (parse_output text)) eqn:Hweak.
  - eexists _, _. split; [exact Hgen|]. split; [reflexivity|].
    split; [apply refined_prompt_shorter|].
    split; [|discriminate].
    intros _. split; [rewrite <- app_assoc; reflexivity|].
    split.
    + rewrite final_validation_root_cause;
        rewrite apply_retry_root_cause;
        [reflexivity | apply retried_root_cause_nonempty].
    + rewrite final_validation_recommendations.
      apply apply_retry_recommendations.
  - eexists _, _. split; [exact Hgen|]. split; [reflexivity|].
    split; [apply refined_prompt_shorter|].
    split; [discriminate|].
    intros _. split; reflexivity.
Qed.

(** C5 at a reply with one placeholder among two recommendations: the
    retry is issued and its root cause and bullet replace the old ones. *)
Lemma C5_witness :
  let args_prompt :=
    build_prompt (T "Pod") (T "db-0") (T "default") (T "Status: Running")
                 [] [] (T "cpu: 10m") (T "None") in
  let refined :=
    refined_prompt (T "Pod") (T "db-0") (T "default") (T "Status: Running")
                   [] [] (T "cpu: 10m") (T "None") in
  exists f,
    run_rca (demo.two_replies demo.disk_reply demo.disk_retry_reply)
            (T "Pod") (T "db-0") (T "default") (T "Status: Running") [] []
            (T "cpu: 10m") (T "None") []
    = (Eff.Ok f,
       [EvGenerate Primary args_prompt] ++ [EvSleep 2; EvGenerate Fallback refined])
    /\ root_cause f = T "Log files filled the data volume"
    /\ recommendations f = [T "Rotate the log files"].
Proof.
  intros args_prompt refined.
  destruct (C5_retry_once_when_weak
              (demo.two_replies demo.disk_reply demo.disk_retry_reply)
              (T "Pod") (T "db-0") (T "default") (T "Status: Running") [] []
              (T "cpu: 10m") (T "None") [])
    as (text & l1 & f & l2 & Hgen & Hrun & _ & Hweak & _).
  assert (text = demo.disk_reply /\ l1 = [EvGenerate Primary args_prompt])
    as [-> ->].
  { vm_compute in Hgen. inversion Hgen. split; vm_compute; reflexivity. }
  destruct Hweak as (-> & Hrc & Hrecs); [vm_compute; reflexivity|].
  exists f. split; [exact Hrun|].
  split.
  - rewrite Hrc. vm_compute. reflexivity.
  - rewrite Hrecs. vm_compute. reflexivity.
Defined.

End Reasoning.
